(** * touch_remote: command dispatch of the WebOS touch remote

    A shallow embedding of [main.py].  The Kivy widgets are plain records,
    the mutable attribute [self._control] is threaded through a state and
    exception monad, and every call that leaves the program (the adapter
    of [lgtv_remote], the control classes of [pywebostv], [getmac],
    [wakeonlan], [print]) appends one event to a trace and takes its
    outcome (a value or a raised exception) from an environment [Env]. *)

From Stdlib Require Import Ascii ssreflect.
From stdpp Require Import base strings list gmap.

Set Default Proof Using "Type".

(** ** Python exceptions and results *)

(** Only the distinction made by [except OSError] matters to the program:
    [OSError] with its subclasses ([ConnectionError], [TimeoutError],
    socket errors) on one side, every other exception on the other. *)
Inductive exn :=
| OSError (msg : string)
| Exception (msg : string).

Inductive result (A : Type) :=
| Returns (a : A)
| Raises (e : exn).
Arguments Returns {A} a.
Arguments Raises {A} e.

(** ** The state and exception monad *)

Definition M (S A : Type) : Type := S → result A * S.

Definition ret {S A} (a : A) : M S A := λ s, (Returns a, s).

Definition raise {S A} (e : exn) : M S A := λ s, (Raises e, s).

Definition bind {S A B} (m : M S A) (k : A → M S B) : M S B :=
  λ s, match m s with
       | (Returns a, s') => k a s'
       | (Raises e, s') => (Raises e, s')
       end.

Declare Scope py_scope.
Delimit Scope py_scope with py.
Notation "x <- m ;; k" := (bind m (λ x, k))
  (at level 100, m at next level, right associativity) : py_scope.
Notation "m ;; k" := (bind m (λ _, k))
  (at level 100, right associativity) : py_scope.
Local Open Scope py_scope.

(** [try: m except OSError as e: h e]: state changes made by [m] before
    the exception was raised are kept. *)
Definition try_except_OSError {S A} (m : M S A) (h : string → M S A) : M S A :=
  λ s, match m s with
       | (Raises (OSError msg), s') => h msg s'
       | r => r
       end.

(** ** Objects of the external libraries *)

Definition obj := nat.

(** The four control classes of [pywebostv.controls]. *)
Inductive kind := SystemControl | MediaControl | ApplicationControl | InputControl.

#[global] Instance kind_eq_dec : EqDecision kind.
Proof. solve_decision. Defined.

(** A control object: its class, the client it wraps and, for an
    [InputControl], whether a [connect_input] call on it has returned. *)
Record Control := mkControl {
  control_class : kind;
  client : obj;
  input_connected : bool
}.

(** [TvSettings] of [lgtv_remote.settings]; the program reads [host] only. *)
Record TvSettings := mkTvSettings { host : string }.

(** Arguments passed to a control method: [Application({'id': ...})] is
    the only one the program builds. *)
Inductive arg :=
| Application (data : gmap string string).

Inductive event :=
| Settings_new
| WebOSClientAdapter_new (settings : obj)
| Settings_load (settings : obj) (path : string)
| Settings_get (settings : obj) (name : string)
| adapter_create (adapter : obj) (path name : string)
| control_new (k : kind) (cl : obj)
| connect_input (f : obj)
| method_call (f : obj) (name : string) (args : list arg)
| get_mac_address (ip : string)
| send_magic_packet (mac : option string)
| print (e : exn).

(** The world outside the widgets: the control objects allocated so far,
    the trace of external calls (oldest first) and their number. *)
Record World := mkWorld {
  heap : gmap obj Control;
  trace : list event;
  clock : nat
}.

(** The environment decides the outcome of every external call, from the
    number of external calls made before it and the call's arguments. *)
Class Env := {
  (* [Path().home()], the same throughout a run *)
  home : list string;
  Settings_new_result : nat → result obj;
  WebOSClientAdapter_new_result : nat → obj → result obj;
  Settings_load_result : nat → obj → string → result ();
  Settings_get_result : nat → obj → string → result TvSettings;
  adapter_create_result : nat → obj → string → string → result obj;
  control_new_result : nat → kind → obj → result ();
  connect_input_result : nat → obj → result ();
  method_call_result : nat → obj → string → list arg → result ();
  get_mac_address_result : nat → string → result (option string);
  send_magic_packet_result : nat → option string → result ()
}.

(** An external call: logged, counted, and answered by the environment. *)
Definition extern {A} (ev : event) (outcome : nat → result A) : M World A :=
  λ w, (outcome (clock w), mkWorld (heap w) (trace w ++ [ev]) (S (clock w))).

Definition alloc (c : Control) : M World obj :=
  λ w, let f := fresh (dom (heap w)) in
       (Returns f, mkWorld (<[f := c]> (heap w)) (trace w) (clock w)).

Definition set_connected (c : Control) : Control :=
  mkControl (control_class c) (client c) true.

Definition mark_connected (f : obj) : M World () :=
  λ w, (Returns (), mkWorld (alter set_connected f (heap w)) (trace w) (clock w)).

(** ** Calls into the external libraries *)

Section Externals.
Context `{E : Env}.

(** [str(Path().home() / '.lgtv.yaml')]: a path is the list of its
    components below the root. *)
Definition str_of_path (p : list string) : string :=
  match p with
  | [] => "/"
  | _ => String.concat "" ((λ c, "/" +:+ c) <$> p)
  end.

Definition config_path : string := str_of_path (home ++ [".lgtv.yaml"]).

(** [adapter.create(path, name)] *)
Definition create (adapter : obj) (path name : string) : M World obj :=
  extern (adapter_create adapter path name)
         (λ t, adapter_create_result t adapter path name).

(** [SystemControl(cl)], [MediaControl(cl)], [ApplicationControl(cl)],
    [InputControl(cl)]: a new object when the constructor returns. *)
Definition new_control (k : kind) (cl : obj) : M World obj :=
  extern (control_new k cl) (λ t, control_new_result t k cl);;
  alloc (mkControl k cl false).

(** [f.connect_input()] *)
Definition do_connect_input (f : obj) : M World () :=
  extern (connect_input f) (λ t, connect_input_result t f);;
  mark_connected f.

(** [getattr(f, name)] called with the arguments [args] *)
Definition call_method (f : obj) (name : string) (args : list arg) : M World () :=
  extern (method_call f name args) (λ t, method_call_result t f name args).

Definition do_print (e : exn) : M World () :=
  extern (print e) (λ _, Returns ()).

End Externals.

Section MoreExternals.
Context `{E : Env}.

(** [get_mac_address(ip=ip)] of [getmac]; Python's [None] is [None]. *)
Definition lookup_mac (ip : string) : M World (option string) :=
  extern (get_mac_address ip) (λ t, get_mac_address_result t ip).

(** [send_magic_packet(mac)] of [wakeonlan] *)
Definition send_wake (mac : option string) : M World () :=
  extern (send_magic_packet mac) (λ t, send_magic_packet_result t mac).

End MoreExternals.

(** ** Strings *)

(** [str.lower()], exact on ASCII strings (every command is one). *)
Definition lower_ascii (c : ascii) : ascii :=
  let n := nat_of_ascii c in
  if (65 <=? n) && (n <=? 90) then ascii_of_nat (n + 32) else c.

Fixpoint lower (s : string) : string :=
  match s with
  | EmptyString => EmptyString
  | String c r => String (lower_ascii c) (lower r)
  end.

(** A literal used as an expression statement: the value is built and
    dropped, nothing else happens. *)
Inductive literal :=
| float_literal (digits : Z) (exponent10 : Z)
| str_literal (s : string).

Definition expr_stmt {S} (l : literal) : M S () := ret ().

(** ** Buttons *)

(** The concrete subclasses of [WebOsButton]. *)
Inductive ButtonClass :=
| PowerOff | VolumeUp | VolumeDown | Rewind | Pause | Play | FastForward
| Home | Back | Up | Left | Right | Down | Ok | Mute | SettingsApp.

(** Their abstract parent classes. *)
Inductive ButtonBase := SystemButton | MediaButton | ApplicationButton | InputButton.

#[global] Instance ButtonBase_eq_dec : EqDecision ButtonBase.
Proof. solve_decision. Defined.

Definition base (c : ButtonClass) : ButtonBase :=
  match c with
  | PowerOff => SystemButton
  | VolumeUp | VolumeDown | Rewind | Pause | Play | FastForward | Mute => MediaButton
  | Home | Back | Up | Left | Right | Down | Ok => InputButton
  | SettingsApp => ApplicationButton
  end.

(** An instance: its class and the attributes [adapter] and [_control]
    ([None] is Python's [None]). *)
Record Button := mkButton {
  cls : ButtonClass;
  adapter : obj;
  _control : option obj
}.

(** A method runs on its instance and the world. *)
Record Machine := mkMachine {
  self : Button;
  world : World
}.

Definition lift {A} (m : M World A) : M Machine A :=
  λ s, let (r, w) := m (world s) in (r, mkMachine (self s) w).

Definition get_adapter : M Machine obj := λ s, (Returns (adapter (self s)), s).

Definition get_control : M Machine (option obj) := λ s, (Returns (_control (self s)), s).

Definition set_control (v : option obj) : M Machine () :=
  λ s, (Returns (), mkMachine (mkButton (cls (self s)) (adapter (self s)) v) (world s)).

(** [getattr(target, name)] called with [args]: [None] has no such
    attribute. *)
Definition getattr_call `{E : Env} (target : option obj) (name : string) (args : list arg)
  : M Machine () :=
  match target with
  | Some f => lift (call_method f name args)
  | None => raise (Exception "AttributeError")
  end.

Module WebOsButton.

Definition __init__ (c : ButtonClass) (adapter : obj) : Button :=
  mkButton c adapter None.

Definition on_press `{E : Env} (control : M Machine (option obj)) (command : M Machine string)
  : M Machine () :=
  try_except_OSError
    (f <- control;;
     c <- command;;
     getattr_call f (lower c) [])
    (λ msg, lift (do_print (OSError msg))).

End WebOsButton.

Module SystemButton.

Definition control `{E : Env} : M Machine (option obj) :=
  c <- get_control;;
  match c with
  | None =>
      a <- get_adapter;;
      cl <- lift (create a config_path "living_room");;
      f <- lift (new_control SystemControl cl);;
      set_control (Some f)
  | Some _ => ret ()
  end;;
  get_control.

End SystemButton.

Module MediaButton.

Definition control `{E : Env} : M Machine (option obj) :=
  c <- get_control;;
  match c with
  | None =>
      a <- get_adapter;;
      cl <- lift (create a config_path "living_room");;
      f <- lift (new_control MediaControl cl);;
      set_control (Some f)
  | Some _ => ret ()
  end;;
  get_control.

End MediaButton.

Module ApplicationButton.

Definition control `{E : Env} : M Machine (option obj) :=
  c <- get_control;;
  match c with
  | None =>
      a <- get_adapter;;
      cl <- lift (create a config_path "living_room");;
      f <- lift (new_control ApplicationControl cl);;
      set_control (Some f)
  | Some _ => ret ()
  end;;
  get_control.

Definition on_press `{E : Env} (control : M Machine (option obj)) (command : M Machine string)
  : M Machine () :=
  try_except_OSError
    (f <- control;;
     c <- command;;
     getattr_call f "launch" [Application {[ "id" := c ]}])
    (λ msg, lift (do_print (OSError msg))).

End ApplicationButton.

Module InputButton.

Definition control `{E : Env} : M Machine (option obj) :=
  c <- get_control;;
  match c with
  | None =>
      a <- get_adapter;;
      cl <- lift (create a config_path "living_room");;
      f <- lift (new_control InputControl cl);;
      set_control (Some f);;
      f' <- get_control;;
      match f' with
      | Some f' => lift (do_connect_input f')
      | None => raise (Exception "AttributeError")
      end
  | Some _ => ret ()
  end;;
  get_control.

End InputButton.

(** The [command] property of each concrete class. *)

Module PowerOff.
Definition command : M Machine string := ret "power_off".
End PowerOff.

Module VolumeUp.
Definition command : M Machine string := ret "volume_up".
End VolumeUp.

Module VolumeDown.
Definition command : M Machine string := ret "volume_down".
End VolumeDown.

Module Rewind.
Definition command : M Machine string := ret "rewind".
End Rewind.

Module Pause.
Definition command : M Machine string := ret "pause".
End Pause.

Module Play.
(** The body is the statement [.0] followed by [return 'play']. *)
Definition command : M Machine string :=
  expr_stmt (float_literal 0 (-1));;
  ret "play".
End Play.

Module FastForward.
Definition command : M Machine string := ret "fast_forward".
End FastForward.

Module Home.
Definition command : M Machine string := ret "home".
End Home.

Module Back.
Definition command : M Machine string := ret "back".
End Back.

Module Up.
Definition command : M Machine string := ret "up".
End Up.

Module Left.
Definition command : M Machine string := ret "left".
End Left.

Module Right.
Definition command : M Machine string := ret "right".
End Right.

Module Down.
Definition command : M Machine string := ret "down".
End Down.

Module Ok.
Definition command : M Machine string := ret "ok".
End Ok.

Module Mute.
Definition command : M Machine string := ret "mute".
End Mute.

Module SettingsApp.
Definition command : M Machine string := ret "com.palm.app.settings".
End SettingsApp.

(** ** Method resolution on the instance's class *)

Definition command : M Machine string :=
  λ s, match cls (self s) with
       | PowerOff => PowerOff.command s
       | VolumeUp => VolumeUp.command s
       | VolumeDown => VolumeDown.command s
       | Rewind => Rewind.command s
       | Pause => Pause.command s
       | Play => Play.command s
       | FastForward => FastForward.command s
       | Home => Home.command s
       | Back => Back.command s
       | Up => Up.command s
       | Left => Left.command s
       | Right => Right.command s
       | Down => Down.command s
       | Ok => Ok.command s
       | Mute => Mute.command s
       | SettingsApp => SettingsApp.command s
       end.

Definition control `{E : Env} : M Machine (option obj) :=
  λ s, match base (cls (self s)) with
       | SystemButton => SystemButton.control s
       | MediaButton => MediaButton.control s
       | ApplicationButton => ApplicationButton.control s
       | InputButton => InputButton.control s
       end.

(** [ApplicationButton] overrides [on_press]; the other classes inherit
    [WebOsButton.on_press]. *)
Definition on_press `{E : Env} : M Machine () :=
  λ s, match base (cls (self s)) with
       | ApplicationButton => ApplicationButton.on_press control command s
       | _ => WebOsButton.on_press control command s
       end.

(** ** The power-on button *)

Module PowerOn.

Record t := mk { settings : TvSettings }.

Definition __init__ (settings : TvSettings) : t := mk settings.

Definition on_press `{E : Env} (self : t) : M World () :=
  mac <- lookup_mac (host (settings self));;
  send_wake mac.

End PowerOn.

(** ** Settings and adapter of [lgtv_remote] *)

Module Settings.

Definition __init__ `{E : Env} : M World obj :=
  extern Settings_new Settings_new_result.

Definition load `{E : Env} (self : obj) (path : string) : M World () :=
  extern (Settings_load self path) (λ t, Settings_load_result t self path).

Definition get `{E : Env} (self : obj) (name : string) : M World TvSettings :=
  extern (Settings_get self name) (λ t, Settings_get_result t self name).

End Settings.

Module WebOSClientAdapter.

Definition __init__ `{E : Env} (settings : obj) : M World obj :=
  extern (WebOSClientAdapter_new settings) (λ t, WebOSClientAdapter_new_result t settings).

End WebOSClientAdapter.

(** ** Layout *)

Inductive GridClass :=
| GridLayout | PowerGrid | PlayControlsGrid | VolumeGrid | DPad
| VolumeAndPowerGrid | LeftGrid.

(** The widget tree; children are listed in the order of the
    [add_widget] calls. *)
#[local] Unset Elimination Schemes.
Inductive Widget :=
| button (b : Button)
| power_on (p : PowerOn.t)
| grid (c : GridClass) (cols : nat) (children : list Widget).
#[local] Set Elimination Schemes.

Module PowerGrid.
Definition __init__ `{E : Env} (settings adapter : obj) : M World Widget :=
  tv <- Settings.get settings "living_room";;
  ret (grid PowerGrid 2
         [power_on (PowerOn.__init__ tv);
          button (WebOsButton.__init__ PowerOff adapter)]).
End PowerGrid.

Module PlayControlsGrid.
Definition __init__ (adapter : obj) : Widget :=
  grid PlayControlsGrid 4
    [button (WebOsButton.__init__ Rewind adapter);
     button (WebOsButton.__init__ Pause adapter);
     button (WebOsButton.__init__ Play adapter);
     button (WebOsButton.__init__ FastForward adapter)].
End PlayControlsGrid.

Module VolumeGrid.
Definition __init__ (adapter : obj) : Widget :=
  grid VolumeGrid 1
    [button (WebOsButton.__init__ VolumeUp adapter);
     button (WebOsButton.__init__ VolumeDown adapter)].
End VolumeGrid.

Module DPad.
Definition __init__ (adapter : obj) : Widget :=
  grid DPad 3
    [button (WebOsButton.__init__ Back adapter);
     button (WebOsButton.__init__ Up adapter);
     button (WebOsButton.__init__ Home adapter);
     button (WebOsButton.__init__ Left adapter);
     button (WebOsButton.__init__ Ok adapter);
     button (WebOsButton.__init__ Right adapter);
     button (WebOsButton.__init__ Mute adapter);
     button (WebOsButton.__init__ Down adapter);
     button (WebOsButton.__init__ SettingsApp adapter)].
End DPad.

Module VolumeAndPowerGrid.
Definition __init__ `{E : Env} (adapter settings : obj) : M World Widget :=
  p <- PowerGrid.__init__ settings adapter;;
  ret (grid VolumeAndPowerGrid 2 [p; VolumeGrid.__init__ adapter]).
End VolumeAndPowerGrid.

Module LeftGrid.
Definition __init__ `{E : Env} (adapter settings : obj) : M World Widget :=
  v <- VolumeAndPowerGrid.__init__ adapter settings;;
  ret (grid LeftGrid 1 [v; PlayControlsGrid.__init__ adapter]).
End LeftGrid.

Module TouchRemoteApp.
Definition build `{E : Env} : M World Widget :=
  settings <- Settings.__init__;;
  adapter <- WebOSClientAdapter.__init__ settings;;
  Settings.load settings config_path;;
  l <- LeftGrid.__init__ adapter settings;;
  ret (grid GridLayout 2 [l; DPad.__init__ adapter]).
End TouchRemoteApp.

(** The buttons and power-on buttons of a widget tree. *)
Fixpoint buttons (w : Widget) : list Button :=
  match w with
  | button b => [b]
  | power_on _ => []
  | grid _ _ ws => (fix go (l : list Widget) : list Button :=
                      match l with [] => [] | x :: r => buttons x ++ go r end) ws
  end.

Fixpoint power_ons (w : Widget) : list PowerOn.t :=
  match w with
  | button _ => []
  | power_on p => [p]
  | grid _ _ ws => (fix go (l : list Widget) : list PowerOn.t :=
                      match l with [] => [] | x :: r => power_ons x ++ go r end) ws
  end.

(** ** Observations on runs *)

Definition empty_world : World := mkWorld ∅ [] 0.

(** The events appended to the trace between two worlds. *)
Definition emitted (w w' : World) : list event := drop (length (trace w)) (trace w').

(** Control objects present in [w'] and not in [w]. *)
Definition constructed (w w' : World) : gset obj := dom (heap w') ∖ dom (heap w).

Definition is_adapter_create (e : event) : bool :=
  match e with adapter_create _ _ _ => true | _ => false end.
Definition is_control_new (e : event) : bool :=
  match e with control_new _ _ => true | _ => false end.
Definition is_connect_input (e : event) : bool :=
  match e with connect_input _ => true | _ => false end.
Definition is_method_call (e : event) : bool :=
  match e with method_call _ _ _ => true | _ => false end.

(** Events of the television control protocol client. *)
Definition is_protocol (e : event) : bool :=
  is_adapter_create e || is_control_new e || is_connect_input e || is_method_call e.

(** One activation of a button: the instance and the world after it,
    whatever the outcome. *)
Definition press `{E : Env} (s : Machine) : Machine := (on_press s).2.

(** The button after [n] activations. *)
Fixpoint presses `{E : Env} (n : nat) (s : Machine) : Machine :=
  match n with
  | 0 => s
  | S n => press (presses n s)
  end.

(** ** Environments *)

(** Every external call returns. *)
Definition working : Env := {|
  home := ["home"; "pi"];
  Settings_new_result := λ _, Returns 100;
  WebOSClientAdapter_new_result := λ _ _, Returns 101;
  Settings_load_result := λ _ _ _, Returns ();
  Settings_get_result := λ _ _ _, Returns (mkTvSettings "192.168.1.50");
  adapter_create_result := λ _ _ _ _, Returns 102;
  control_new_result := λ _ _ _, Returns ();
  connect_input_result := λ _ _, Returns ();
  method_call_result := λ _ _ _ _, Returns ();
  get_mac_address_result := λ _ _, Returns (Some "aa:bb:cc:dd:ee:ff");
  send_magic_packet_result := λ _ _, Returns ()
|}.

(** The wake packet cannot be sent: [send_magic_packet] raises
    [OSError]. *)
Definition network_unreachable : Env := {|
  home := ["home"; "pi"];
  Settings_new_result := λ _, Returns 100;
  WebOSClientAdapter_new_result := λ _ _, Returns 101;
  Settings_load_result := λ _ _ _, Returns ();
  Settings_get_result := λ _ _ _, Returns (mkTvSettings "192.168.1.50");
  adapter_create_result := λ _ _ _ _, Raises (OSError "[Errno 101] Network is unreachable");
  control_new_result := λ _ _ _, Returns ();
  connect_input_result := λ _ _, Returns ();
  method_call_result := λ _ _ _ _, Returns ();
  get_mac_address_result := λ _ _, Returns (Some "aa:bb:cc:dd:ee:ff");
  send_magic_packet_result := λ _ _, Raises (OSError "[Errno 101] Network is unreachable")
|}.

(** The television is off when the button is first pressed and on from
    then on: only the first external call fails. *)
Definition tv_off_at_first_press : Env := {|
  home := ["home"; "pi"];
  Settings_new_result := λ _, Returns 100;
  WebOSClientAdapter_new_result := λ _ _, Returns 101;
  Settings_load_result := λ _ _ _, Returns ();
  Settings_get_result := λ _ _ _, Returns (mkTvSettings "192.168.1.50");
  adapter_create_result := λ t _ _ _,
    if t =? 0 then Raises (OSError "[Errno 113] No route to host") else Returns 102;
  control_new_result := λ _ _ _, Returns ();
  connect_input_result := λ _ _, Returns ();
  method_call_result := λ _ _ _ _, Returns ();
  get_mac_address_result := λ _ _, Returns (Some "aa:bb:cc:dd:ee:ff");
  send_magic_packet_result := λ _ _, Returns ()
|}.

(** The input channel cannot be opened during the first press and can
    from then on: [connect_input] raises [OSError] among the first
    three external calls only. *)
Definition input_channel_down_at_first_press : Env := {|
  home := ["home"; "pi"];
  Settings_new_result := λ _, Returns 100;
  WebOSClientAdapter_new_result := λ _ _, Returns 101;
  Settings_load_result := λ _ _ _, Returns ();
  Settings_get_result := λ _ _ _, Returns (mkTvSettings "192.168.1.50");
  adapter_create_result := λ _ _ _ _, Returns 102;
  control_new_result := λ _ _ _, Returns ();
  connect_input_result := λ t _,
    if t <? 3 then Raises (OSError "[Errno 111] Connection refused") else Returns ();
  method_call_result := λ _ _ _ _, Returns ();
  get_mac_address_result := λ _ _, Returns (Some "aa:bb:cc:dd:ee:ff");
  send_magic_packet_result := λ _ _, Returns ()
|}.

(** ** Acquisition of the control object *)

Definition control_kind (b : ButtonBase) : kind :=
  match b with
  | SystemButton => SystemControl
  | MediaButton => MediaControl
  | ApplicationButton => ApplicationControl
  | InputButton => InputControl
  end.

Definition kind_of (s : Machine) : kind := control_kind (base (cls (self s))).

(** What the environment answers to the construction
    [XControl(self.adapter.create(path, 'living_room'))] started in [s]:
    the client when both calls return, the exception of the first call
    that raises otherwise. *)
Definition construction `{E : Env} (s : Machine) : result obj :=
  let t := clock (world s) in
  match adapter_create_result t (adapter (self s)) config_path "living_room" with
  | Raises e => Raises e
  | Returns cl =>
      match control_new_result (S t) (kind_of s) cl with
      | Raises e => Raises e
      | Returns _ => Returns cl
      end
  end.

(** [s] after the external calls [d], its attributes untouched. *)
Definition logged (s : Machine) (d : list event) : Machine :=
  mkMachine (self s)
    (mkWorld (heap (world s)) (trace (world s) ++ d) (length d + clock (world s))).

(** [s] after the external calls [d], with the new control object [f]
    stored in [self._control]. *)
Definition cached (s : Machine) (f : obj) (c : Control) (d : list event) : Machine :=
  mkMachine (mkButton (cls (self s)) (adapter (self s)) (Some f))
    (mkWorld (<[f := c]> (heap (world s))) (trace (world s) ++ d)
             (length d + clock (world s))).

(** ** Closed forms of [control] and [on_press], and observations *)

(** [control] in closed form. *)
Definition control_nf `{E : Env} (s : Machine) : result (option obj) * Machine :=
  match _control (self s) with
  | Some f => (Returns (Some f), s)
  | None =>
      let t := clock (world s) in
      let k := kind_of s in
      let ev := adapter_create (adapter (self s)) config_path "living_room" in
      match adapter_create_result t (adapter (self s)) config_path "living_room" with
      | Raises e => (Raises e, logged s [ev])
      | Returns cl =>
          match control_new_result (S t) k cl with
          | Raises e => (Raises e, logged s [ev; control_new k cl])
          | Returns _ =>
              let f := fresh (dom (heap (world s))) in
              match k with
              | InputControl =>
                  match connect_input_result (S (S t)) f with
                  | Raises e =>
                      (Raises e,
                       cached s f (mkControl k cl false)
                         [ev; control_new k cl; connect_input f])
                  | Returns _ =>
                      (Returns (Some f),
                       cached s f (mkControl k cl true)
                         [ev; control_new k cl; connect_input f])
                  end
              | _ =>
                  (Returns (Some f),
                   cached s f (mkControl k cl false) [ev; control_new k cl])
              end
          end
      end
  end.

(** The [command] property returns its string and touches nothing. *)
Definition command_value (s : Machine) : string :=
  match (command s).1 with
  | Returns c => c
  | Raises _ => ""
  end.

(** The method and arguments that [on_press] passes to the control. *)
Definition invocation (s : Machine) : string * list arg :=
  match base (cls (self s)) with
  | ApplicationButton => ("launch", [Application {[ "id" := command_value s ]}])
  | _ => (lower (command_value s), [])
  end.

(** [except OSError as e: print(e)] *)
Definition handled (r : result () * Machine) : result () * Machine :=
  match r with
  | (Raises (OSError msg), s') => (Returns (), logged s' [print (OSError msg)])
  | r => r
  end.

(** [on_press] in closed form. *)
Definition on_press_nf `{E : Env} (s : Machine) : result () * Machine :=
  handled
    match control_nf s with
    | (Returns (Some f), s1) =>
        (method_call_result (clock (world s1)) f (invocation s).1 (invocation s).2,
         logged s1 [method_call f (invocation s).1 (invocation s).2])
    | (Returns None, s1) => (Raises (Exception "AttributeError"), s1)
    | (Raises e, s1) => (Raises e, s1)
    end.

(** The state of a button right after [__init__], in a world where
    nothing has happened yet. *)
Definition fresh_button (c : ButtonClass) (adapter : obj) : Machine :=
  mkMachine (WebOsButton.__init__ c adapter) empty_world.

Definition is_get_mac_address (e : event) : bool :=
  match e with get_mac_address _ => true | _ => false end.

(** [n] activations of a power-on button, whatever their outcomes. *)
Fixpoint power_on_presses `{E : Env} (n : nat) (p : PowerOn.t) (w : World) : World :=
  match n with
  | 0 => w
  | S n => power_on_presses n p (PowerOn.on_press p w).2
  end.

(** The message of the [OSError] raised inside an activation, by
    [self.control] or by the method call, if there is one. *)
Definition OSError_raised_in `{E : Env} (s : Machine) : option string :=
  match control_nf s with
  | (Raises (OSError msg), _) => Some msg
  | (Returns (Some f), s1) =>
      match method_call_result (clock (world s1)) f (invocation s).1 (invocation s).2 with
      | Raises (OSError msg) => Some msg
      | _ => None
      end
  | _ => None
  end.

(** The path and device name an external call is given, where it takes
    any. *)
Definition uses_fixed_configuration `{E : Env} (e : event) : Prop :=
  match e with
  | adapter_create _ path name => path = config_path ∧ name = "living_room"
  | Settings_load _ path => path = config_path
  | Settings_get _ name => name = "living_room"
  | _ => True
  end.

Definition is_Settings_get (e : event) : bool :=
  match e with Settings_get _ _ => true | _ => false end.

(** C2 as stated: the first activation constructs exactly one control
    object, and every later activation uses that object and constructs
    none. *)
Definition constructs_on_first_press_only `{E : Env} (s0 : Machine) : Prop :=
  ∃ f, constructed (world s0) (world (press s0)) = {[f]}
       ∧ ∀ m, 1 ≤ m →
           _control (self (presses m s0)) = Some f
           ∧ constructed (world (presses m s0)) (world (presses (S m) s0)) = ∅.

(** C4 as stated: the first activation makes exactly one [connect_input]
    call, and no later activation makes one. *)
Definition connects_on_first_press_only `{E : Env} (s0 : Machine) : Prop :=
  (∃ f, filter is_connect_input (emitted (world s0) (world (press s0)))
        = [connect_input f])
  ∧ ∀ m, 1 ≤ m →
      filter is_connect_input
        (emitted (world (presses m s0)) (world (presses (S m) s0))) = [].

(** ** Further observations and scenarios *)

Definition is_print (e : event) : bool :=
  match e with print _ => true | _ => false end.

(** The exception raised inside the [try] block of [on_press] started
    in [s], by [self.control] or by the call of the method, if any. *)
Definition raised_in `{E : Env} (s : Machine) : option exn :=
  match control s with
  | (Raises e, _) => Some e
  | (Returns (Some f), s1) =>
      match method_call_result (clock (world s1)) f (invocation s).1 (invocation s).2 with
      | Raises e => Some e
      | Returns _ => None
      end
  | (Returns None, _) => Some (Exception "AttributeError")
  end.

(** The cached control object, if any, is in the heap and of the class
    the button's [control] property constructs. *)
Definition cache_well_formed (s : Machine) : Prop :=
  ∀ f, _control (self s) = Some f →
       ∃ c, heap (world s) !! f = Some c ∧ control_class c = kind_of s.

(** On every control object, [connect_input] is called before any
    method. *)
Definition connects_before_use (l : list event) : Prop :=
  ∀ l1 l2 f name args,
    l = l1 ++ method_call f name args :: l2 → connect_input f ∈ l1.

(** The configuration file is missing: [Settings.load] raises
    [FileNotFoundError], an [OSError]. *)
Definition config_missing : Env := {|
  home := ["home"; "pi"];
  Settings_new_result := λ _, Returns 100;
  WebOSClientAdapter_new_result := λ _ _, Returns 101;
  Settings_load_result := λ _ _ _,
    Raises (OSError "[Errno 2] No such file or directory: '/home/pi/.lgtv.yaml'");
  Settings_get_result := λ _ _ _, Returns (mkTvSettings "192.168.1.50");
  adapter_create_result := λ _ _ _ _, Returns 102;
  control_new_result := λ _ _ _, Returns ();
  connect_input_result := λ _ _, Returns ();
  method_call_result := λ _ _ _ _, Returns ();
  get_mac_address_result := λ _ _, Returns (Some "aa:bb:cc:dd:ee:ff");
  send_magic_packet_result := λ _ _, Returns ()
|}.

(** The configuration has no device ['living_room']: [Settings.get]
    raises an exception that is not an [OSError]. *)
Definition device_missing : Env := {|
  home := ["home"; "pi"];
  Settings_new_result := λ _, Returns 100;
  WebOSClientAdapter_new_result := λ _ _, Returns 101;
  Settings_load_result := λ _ _ _, Returns ();
  Settings_get_result := λ _ _ _, Raises (Exception "KeyError: 'living_room'");
  adapter_create_result := λ _ _ _ _, Returns 102;
  control_new_result := λ _ _ _, Returns ();
  connect_input_result := λ _ _, Returns ();
  method_call_result := λ _ _ _ _, Returns ();
  get_mac_address_result := λ _ _, Returns (Some "aa:bb:cc:dd:ee:ff");
  send_magic_packet_result := λ _ _, Returns ()
|}.

(** The television rejects every command with an exception that is not
    an [OSError]. *)
Definition command_rejected : Env := {|
  home := ["home"; "pi"];
  Settings_new_result := λ _, Returns 100;
  WebOSClientAdapter_new_result := λ _ _, Returns 101;
  Settings_load_result := λ _ _ _, Returns ();
  Settings_get_result := λ _ _ _, Returns (mkTvSettings "192.168.1.50");
  adapter_create_result := λ _ _ _ _, Returns 102;
  control_new_result := λ _ _ _, Returns ();
  connect_input_result := λ _ _, Returns ();
  method_call_result := λ _ _ _ _, Raises (Exception "RuntimeError: command rejected");
  get_mac_address_result := λ _ _, Returns (Some "aa:bb:cc:dd:ee:ff");
  send_magic_packet_result := λ _ _, Returns ()
|}.

#[global] Instance ButtonClass_eq_dec : EqDecision ButtonClass.
Proof. solve_decision. Defined.

(** The classes of the command buttons in the order in which [build]
    adds them. *)
Definition command_button_classes : list ButtonClass :=
  [PowerOff; VolumeUp; VolumeDown; Rewind; Pause; Play; FastForward; Back;
   Up; Home; Left; Ok; Right; Mute; Down; SettingsApp].

(** ** Proof automation *)

Ltac unfold_py :=
  cbv [on_press WebOsButton.on_press ApplicationButton.on_press control command
       SystemButton.control MediaButton.control ApplicationButton.control
       InputButton.control PowerOff.command VolumeUp.command VolumeDown.command
       Rewind.command Pause.command Play.command FastForward.command Home.command
       Back.command Up.command Left.command Right.command Down.command Ok.command
       Mute.command SettingsApp.command expr_stmt try_except_OSError getattr_call
       bind ret raise lift get_control set_control get_adapter create new_control
       do_connect_input call_method do_print extern alloc mark_connected
       base kind_of control_kind cls self world adapter _control heap trace clock].

Section Acquisition.
Context `{E : Env}.

Implicit Types (s : Machine) (w : World) (f : obj).

Lemma control_eq s : control s = control_nf s.
Proof.
  destruct s as [[c a ctl] [h tr t]].
  unfold control_nf, logged, cached; simpl.
  destruct ctl as [f|]; [by destruct c|].
  destruct c; unfold_py;
    (destruct (adapter_create_result _ _ _ _) as [cl|e]; [|done]);
    (destruct (control_new_result _ _ _) as [[]|e]; [|by rw -app_assoc]);
    rw ?lookup_insert_eq;
    try (destruct (connect_input_result _ _) as [[]|e]);
    rw -?app_assoc ?alter_insert_eq; done.
Qed.

Lemma command_eq s : command s = (Returns (command_value s), s).
Proof. destruct s as [[c a ctl] w]; by destruct c. Qed.

Lemma command_lower s : lower (command_value s) = command_value s.
Proof. destruct s as [[c a ctl] w]; by destruct c. Qed.

Lemma control_nf_class s r s1 :
  control_nf s = (r, s1) → cls (self s1) = cls (self s) ∧ adapter (self s1) = adapter (self s).
Proof.
  unfold control_nf.
  repeat case_match; intros; simplify_eq; done.
Qed.

Lemma on_press_eq s : on_press s = on_press_nf s.
Proof.
  unfold on_press_nf, handled.
  destruct (control_nf s) as [r s1] eqn:Hc.
  destruct (control_nf_class _ _ _ Hc) as [Hcls _].
  rw -control_eq in Hc.
  assert (Hcmd := command_eq s1).
  unfold invocation, command_value.
  destruct s as [[c a ctl] w], s1 as [[c1 a1 ctl1] w1]; simpl in Hcls; subst c1.
  destruct c;
    cbv [on_press WebOsButton.on_press ApplicationButton.on_press try_except_OSError
         bind base cls self];
    rw Hc; destruct r as [[f|]|[m|m]]; try done;
    unfold_py; simpl;
    by destruct (method_call_result _ _ _ _) as [[]|[m|m]].
Qed.

End Acquisition.

(** ** Activations *)

Section Activation.
Context `{E : Env}.

Implicit Types (s : Machine) (w : World) (f : obj) (d : list event).

Lemma logged_logged s d d' : logged (logged s d) d' = logged s (d ++ d').
Proof.
  unfold logged; simpl. rw -app_assoc length_app. do 2 f_equal. lia.
Qed.

Lemma logged_cached s f c d d' : logged (cached s f c d) d' = cached s f c (d ++ d').
Proof.
  unfold logged, cached; simpl. rw -app_assoc length_app. do 2 f_equal. lia.
Qed.

Lemma emitted_logged s d : emitted (world s) (world (logged s d)) = d.
Proof. unfold emitted; simpl. by rw drop_app_length. Qed.

Lemma emitted_cached s f c d : emitted (world s) (world (cached s f c d)) = d.
Proof. unfold emitted; simpl. by rw drop_app_length. Qed.

Lemma emitted_refl w : emitted w w = [].
Proof. unfold emitted. by rw drop_all. Qed.

Lemma press_eq s : press s = (on_press_nf s).2.
Proof. unfold press. by rw on_press_eq. Qed.

End Activation.

(** Case analysis on the closed form of an activation. *)
Ltac press_cases :=
  unfold on_press_nf, control_nf, handled;
  repeat case_match; simplify_eq;
  rw ?logged_logged ?logged_cached; simpl;
  rw ?emitted_logged ?emitted_cached ?emitted_refl; simpl.

(** ** What an activation dispatches *)

(** C7: on every activation of a button that is not an application
    button, the method calls made are exactly one call, on the control
    object that [self.control] resolved, of the method named by the
    button's command string, with no arguments; when [self.control]
    raises instead of resolving, no method is called.  For [PowerOff]
    the method is [power_off]. *)
Theorem on_press_invokes_command `{E : Env} (s : Machine) (cmd : string) :
  base (cls (self s)) ≠ ApplicationButton →
  (command s).1 = Returns cmd →
  filter is_method_call (emitted (world s) (world (press s))) =
    match control s with
    | (Returns (Some f), _) => [method_call f cmd []]
    | _ => []
    end
  ∧ (cls (self s) = PowerOff → cmd = "power_off").
Proof.
  intros Hbase Hcmd.
  rw command_eq in Hcmd; simpl in Hcmd; simplify_eq.
  split; [|by destruct s as [[[] ? ?] ?]; intros; simplify_eq].
  rw press_eq control_eq.
  assert (Hinv : invocation s = (command_value s, [])).
  { unfold invocation. rw command_lower. by destruct (base _). }
  rw /on_press_nf Hinv.
  press_cases; done.
Qed.

Lemma on_press_invokes_command_witness :
  let s := fresh_button PowerOff 101 in
  base (cls (self s)) ≠ ApplicationButton
  ∧ (command s).1 = Returns "power_off"
  ∧ filter is_method_call (emitted (world s) (world (press (E:=working) s)))
    = [method_call 0 "power_off" []].
Proof.
  split; [discriminate|]. split; [reflexivity|].
  apply (on_press_invokes_command (E:=working) (fresh_button PowerOff 101) "power_off");
    [discriminate | reflexivity].
Defined.

(** C3: on every activation of an application button, the method calls
    made are exactly one call of [launch] on the control object that
    [self.control] resolved, with the descriptor [Application({'id':
    command})]; when [self.control] raises instead of resolving, nothing
    is launched.  For [SettingsApp] the identifier is
    [com.palm.app.settings]. *)
Theorem application_on_press_launches `{E : Env} (s : Machine) (cmd : string) :
  base (cls (self s)) = ApplicationButton →
  (command s).1 = Returns cmd →
  filter is_method_call (emitted (world s) (world (press s))) =
    match control s with
    | (Returns (Some f), _) => [method_call f "launch" [Application {[ "id" := cmd ]}]]
    | _ => []
    end
  ∧ (cls (self s) = SettingsApp → cmd = "com.palm.app.settings").
Proof.
  intros Hbase Hcmd.
  rw command_eq in Hcmd; simpl in Hcmd; simplify_eq.
  split; [|by destruct s as [[[] ? ?] ?]; intros; simplify_eq].
  rw press_eq control_eq.
  assert (Hinv : invocation s
                 = ("launch", [Application {[ "id" := command_value s ]}])).
  { unfold invocation. by rw Hbase. }
  rw /on_press_nf Hinv.
  press_cases; done.
Qed.

Lemma application_on_press_launches_witness :
  let s := fresh_button SettingsApp 101 in
  base (cls (self s)) = ApplicationButton
  ∧ (command s).1 = Returns "com.palm.app.settings"
  ∧ filter is_method_call (emitted (world s) (world (press (E:=working) s)))
    = [method_call 0 "launch" [Application {[ "id" := "com.palm.app.settings" ]}]].
Proof.
  split; [reflexivity|]. split; [reflexivity|].
  apply (application_on_press_launches (E:=working) (fresh_button SettingsApp 101)
           "com.palm.app.settings"); reflexivity.
Defined.

(** C8: the [command] property of [Play] returns ['play'] and leaves the
    state as it was: the statement [.0] before the [return] neither
    raises nor changes anything, for the property itself and for its
    use on any [Play] instance. *)
Theorem Play_command_is_play (s : Machine) :
  Play.command s = (Returns "play", s)
  ∧ (cls (self s) = Play → command s = (Returns "play", s)).
Proof.
  split; [reflexivity|].
  destruct s as [[c a ctl] w]; simpl; by intros ->.
Qed.

(** ** Activations of the power-on button *)

Section PowerOnFacts.
Context `{E : Env}.

Implicit Types (p : PowerOn.t) (w : World).

Lemma emitted_app w w' w'' :
  trace w `prefix_of` trace w' → trace w' `prefix_of` trace w'' →
  emitted w w'' = emitted w w' ++ emitted w' w''.
Proof.
  intros [d Hd] [d' Hd']. unfold emitted.
  rw Hd' Hd -app_assoc !drop_app_length.
  by rw app_assoc drop_app_length.
Qed.

Lemma power_on_press_trace p w :
  trace (PowerOn.on_press p w).2 =
    trace w ++ get_mac_address (host (PowerOn.settings p)) ::
      match get_mac_address_result (clock w) (host (PowerOn.settings p)) with
      | Returns mac => [send_magic_packet mac]
      | Raises _ => []
      end.
Proof.
  cbv [PowerOn.on_press lookup_mac send_wake bind extern].
  destruct (get_mac_address_result _ _) as [mac|e]; simpl; [|done].
  by rw -app_assoc.
Qed.

Lemma power_on_press_heap p w : heap (PowerOn.on_press p w).2 = heap w.
Proof.
  cbv [PowerOn.on_press lookup_mac send_wake bind extern].
  by destruct (get_mac_address_result _ _).
Qed.

Lemma power_on_presses_prefix n p w : trace w `prefix_of` trace (power_on_presses n p w).
Proof.
  revert w; induction n as [|n IH]; intros w; simpl; [done|].
  etrans; [|apply IH]. rw power_on_press_trace. by eexists.
Qed.

End PowerOnFacts.

(** C6: an activation of the power-on button calls, in this order, the
    address lookup of the configured host and the transmission of the
    wake packet to the address found (nothing more when the lookup
    raises); it makes no call to the television control protocol client
    and builds no control object; and nothing is remembered between
    activations: each of [n] activations performs its own lookup. *)
Theorem power_on_press_only_wakes `{E : Env} (p : PowerOn.t) (w : World) (n : nat) :
  emitted w (PowerOn.on_press p w).2 =
    get_mac_address (host (PowerOn.settings p)) ::
      match get_mac_address_result (clock w) (host (PowerOn.settings p)) with
      | Returns mac => [send_magic_packet mac]
      | Raises _ => []
      end
  ∧ filter is_protocol (emitted w (PowerOn.on_press p w).2) = []
  ∧ heap (PowerOn.on_press p w).2 = heap w
  ∧ length (filter is_get_mac_address (emitted w (power_on_presses n p w))) = n.
Proof.
  assert (Hem : ∀ w, emitted w (PowerOn.on_press p w).2 =
    get_mac_address (host (PowerOn.settings p)) ::
      match get_mac_address_result (clock w) (host (PowerOn.settings p)) with
      | Returns mac => [send_magic_packet mac]
      | Raises _ => []
      end).
  { intros w0. unfold emitted. by rw power_on_press_trace drop_app_length. }
  split; [apply Hem|]. split; [|split; [apply power_on_press_heap|]].
  - rw Hem. by destruct (get_mac_address_result _ _).
  - revert w; induction n as [|n IH]; intros w; simpl.
    + by rw emitted_refl.
    + rw (emitted_app w (PowerOn.on_press p w).2).
      * rw power_on_press_trace. by eexists.
      * apply power_on_presses_prefix.
      * rw filter_app length_app IH Hem.
        by destruct (get_mac_address_result _ _).
Qed.

(** ** Errors at the dispatch boundary *)

Section Boundary.
Context `{E : Env}.

(** The command buttons: an [OSError] never leaves [on_press]. *)
Lemma on_press_catches_OSError (s : Machine) (msg : string) :
  (on_press s).1 ≠ Raises (OSError msg).
Proof.
  rw on_press_eq. press_cases; done.
Qed.

Lemma on_press_prints_OSError (s : Machine) (msg : string) :
  OSError_raised_in s = Some msg →
  (on_press s).1 = Returns ()
  ∧ last (emitted (world s) (world (press s))) = Some (print (OSError msg)).
Proof.
  rw press_eq on_press_eq /OSError_raised_in. press_cases; try done.
  all: by intros [= ->].
Qed.

End Boundary.

(** C1, at the power-on button: with the network unreachable the
    [OSError] of [send_magic_packet] leaves [PowerOn.on_press]; nothing
    is printed. *)
Theorem power_on_press_propagates_OSError :
  PowerOn.on_press (E:=network_unreachable)
    (PowerOn.__init__ (mkTvSettings "192.168.1.50")) empty_world
  = (Raises (OSError "[Errno 101] Network is unreachable"),
     mkWorld ∅ [get_mac_address "192.168.1.50";
                send_magic_packet (Some "aa:bb:cc:dd:ee:ff")] 2).
Proof. reflexivity. Qed.

(** ** The configuration used *)

Ltac unfold_build :=
  cbv [TouchRemoteApp.build LeftGrid.__init__ VolumeAndPowerGrid.__init__
       PowerGrid.__init__ Settings.__init__ Settings.load Settings.get
       WebOSClientAdapter.__init__ bind ret extern].

(** C9: every [adapter.create] call made by an activation of any button
    (of any of the four kinds) is given the path [home / '.lgtv.yaml']
    and the device name ['living_room']; [build] loads the settings from
    that same path and looks the power-on button's settings up under
    that same name, and the power-on button of the widget tree holds
    the settings that lookup returned. *)
Theorem fixed_configuration `{E : Env} :
  config_path = str_of_path (home ++ [".lgtv.yaml"])
  ∧ (∀ s : Machine,
       Forall uses_fixed_configuration (emitted (world s) (world (press s))))
  ∧ (∀ w : World,
       Forall uses_fixed_configuration (emitted w (TouchRemoteApp.build w).2))
  ∧ (∀ (w w' : World) (tree : Widget),
       TouchRemoteApp.build w = (Returns tree, w') →
       ∃ (st : obj) (tv : TvSettings),
         filter is_Settings_get (emitted w w') = [Settings_get st "living_room"]
         ∧ Settings_get_result (3 + clock w) st "living_room" = Returns tv
         ∧ power_ons tree = [PowerOn.__init__ tv]).
Proof.
  split; [done|]. split; [|split].
  - intros s. rw press_eq. press_cases; repeat constructor.
  - intros w. unfold_build.
    repeat case_match; simplify_eq; simpl;
      rw -?app_assoc /emitted /= drop_app_length; repeat constructor.
  - intros w w' tree. unfold_build.
    repeat case_match; simpl; intros; simplify_eq.
    eexists _, _. rw -!app_assoc /emitted /= drop_app_length /=. done.
Qed.

(** ** One activation, by the state of the cache *)

Section Press.
Context `{E : Env}.

Implicit Types (s : Machine) (w : World) (f : obj) (d : list event).

(** The control object is cached: it is kept, nothing is constructed or
    connected, and the only protocol call is the method call. *)
Lemma press_cached s f :
  _control (self s) = Some f →
  ∃ d, press s = logged s d
       ∧ filter is_adapter_create d = []
       ∧ filter is_control_new d = []
       ∧ filter is_connect_input d = [].
Proof.
  intros Hc. rw press_eq. press_cases; by eexists.
Qed.

(** Nothing is cached and the construction raises: nothing is cached
    afterwards either. *)
Lemma press_construction_raises s e :
  _control (self s) = None →
  construction s = Raises e →
  ∃ d, press s = logged s d
       ∧ (control s).1 = Raises e
       ∧ _control (self (control s).2) = None
       ∧ filter is_connect_input d = [].
Proof.
  intros Hc. rw press_eq control_eq /construction.
  press_cases; intros; simplify_eq; by eexists.
Qed.

(** Nothing is cached and the construction returns: the new object is
    cached, and connected at most once if it is an [InputControl]; it is
    marked connected exactly when it is an [InputControl] and
    [self.control] returned. *)
Lemma press_construction_returns s cl :
  _control (self s) = None →
  construction s = Returns cl →
  ∃ c d, press s = cached s (fresh (dom (heap (world s)))) c d
         ∧ control_class c = kind_of s
         ∧ client c = cl
         ∧ filter is_control_new d = [control_new (kind_of s) cl]
         ∧ filter is_connect_input d =
             match kind_of s with
             | InputControl => [connect_input (fresh (dom (heap (world s))))]
             | _ => []
             end
         ∧ input_connected c =
             match kind_of s, (control s).1 with
             | InputControl, Returns _ => true
             | _, _ => false
             end
         ∧ (kind_of s ≠ InputControl →
            (control s).1 = Returns (Some (fresh (dom (heap (world s)))))).
Proof.
  intros Hc. rw press_eq control_eq /construction.
  press_cases; intros; simplify_eq; by eexists _, _.
Qed.

(** With nothing cached, an activation starts with [adapter.create]. *)
Lemma press_uncached_starts_with_create s :
  _control (self s) = None →
  ∃ rest, emitted (world s) (world (press s))
          = adapter_create (adapter (self s)) config_path "living_room" :: rest.
Proof.
  intros Hc. rw press_eq. press_cases; by eexists.
Qed.

Lemma press_prefix s : trace (world s) `prefix_of` trace (world (press s)).
Proof.
  rw press_eq. press_cases; by eexists.
Qed.

Lemma press_class s :
  cls (self (press s)) = cls (self s) ∧ adapter (self (press s)) = adapter (self s).
Proof.
  rw press_eq. press_cases; done.
Qed.

Lemma presses_class n s : cls (self (presses n s)) = cls (self s).
Proof.
  induction n as [|n IH]; [done|]. simpl. by rw (proj1 (press_class _)).
Qed.

Lemma presses_prefix n s : trace (world s) `prefix_of` trace (world (presses n s)).
Proof.
  induction n as [|n IH]; [done|]. simpl. etrans; [apply IH|apply press_prefix].
Qed.

Lemma kind_of_presses n s : kind_of (presses n s) = kind_of s.
Proof. unfold kind_of. by rw presses_class. Qed.

(** As long as every construction raises, the button stays as it was
    after [__init__]: nothing cached, nothing constructed, nothing
    connected. *)
Lemma presses_construction_raises n s :
  _control (self s) = None →
  (∀ k, k < n → ∃ e, construction (presses k s) = Raises e) →
  _control (self (presses n s)) = None
  ∧ heap (world (presses n s)) = heap (world s)
  ∧ filter is_connect_input (emitted (world s) (world (presses n s))) = [].
Proof.
  intros Hc. induction n as [|n IH]; intros Hr.
  { simpl. by rw emitted_refl. }
  destruct IH as (Hn & Hh & Hf); [intros k Hk; apply Hr; lia|].
  destruct (Hr n) as [e He]; [lia|].
  destruct (press_construction_raises _ _ Hn He) as (d & Hp & _ & _ & Hd).
  simpl. rw (emitted_app (world s) (world (presses n s))).
  - apply presses_prefix.
  - apply press_prefix.
  - rw filter_app Hf Hp emitted_logged Hd. by rw Hn.
Qed.

(** Once a control object is cached it is the one used from then on. *)
Lemma presses_cached n s f :
  _control (self s) = Some f →
  _control (self (presses n s)) = Some f
  ∧ heap (world (presses n s)) = heap (world s).
Proof.
  intros Hc. induction n as [|n [IH1 IH2]]; [done|].
  destruct (press_cached _ _ IH1) as (d & Hp & _). simpl. by rw Hp.
Qed.

Lemma presses_add n m s : presses (n + m) s = presses n (presses m s).
Proof. induction n as [|n IH]; [done|]. simpl. by rw IH. Qed.

End Press.

(** C10: for a System, Media or Application button with nothing cached,
    if the construction raises (in [adapter.create] or in the control
    constructor), [self._control] is still [None] when the property
    raises and after the activation, and the next activation starts the
    construction again with [adapter.create], caching the control
    object if the construction returns this time. *)
Theorem failed_construction_is_retried `{E : Env} (s : Machine) (e : exn) :
  base (cls (self s)) ≠ InputButton →
  _control (self s) = None →
  construction s = Raises e →
  (control s).1 = Raises e
  ∧ _control (self (control s).2) = None
  ∧ _control (self (press s)) = None
  ∧ (∃ rest, emitted (world (press s)) (world (press (press s)))
             = adapter_create (adapter (self s)) config_path "living_room" :: rest)
  ∧ (∀ cl, construction (press s) = Returns cl →
           ∃ f, _control (self (press (press s))) = Some f).
Proof.
  intros _ Hc He.
  destruct (press_construction_raises _ _ Hc He) as (d & Hp & Hr & Hn & _).
  assert (Hc' : _control (self (press s)) = None) by by rw Hp.
  split; [done|]. split; [done|]. split; [done|]. split.
  - destruct (press_uncached_starts_with_create _ Hc') as [rest Hrest].
    exists rest. rw Hrest. by rw (proj2 (press_class s)).
  - intros cl Hcl.
    destruct (press_construction_returns _ _ Hc' Hcl) as (c & d' & Hp' & _).
    eexists. by rw Hp'.
Qed.

Lemma failed_construction_is_retried_witness :
  let s := fresh_button PowerOff 101 in
  let e := OSError "[Errno 101] Network is unreachable" in
  base (cls (self s)) ≠ InputButton
  ∧ _control (self s) = None
  ∧ construction (E:=network_unreachable) s = Raises e
  ∧ _control (self (press (E:=network_unreachable) s)) = None.
Proof.
  split; [discriminate|]. split; [reflexivity|]. split; [reflexivity|].
  apply (failed_construction_is_retried (E:=network_unreachable)
           (fresh_button PowerOff 101)
           (OSError "[Errno 101] Network is unreachable"));
    [discriminate | reflexivity | reflexivity].
Defined.

(** ** Over the life of a button *)

Section Lifetime.
Context `{E : Env}.

Implicit Types (s : Machine) (f : obj).

Lemma constructed_same_heap (w w' : World) : heap w' = heap w → constructed w w' = ∅.
Proof. unfold constructed. intros ->. apply difference_diag_L. Qed.

Lemma constructed_cached s c d :
  constructed (world s) (world (cached s (fresh (dom (heap (world s)))) c d))
  = {[fresh (dom (heap (world s)))]}.
Proof.
  unfold constructed; simpl. rw dom_insert_L.
  pose proof (is_fresh (dom (heap (world s)))) as Hfresh.
  apply set_eq; intros x.
  rw elem_of_difference elem_of_union elem_of_singleton.
  split; [intros [[->|Hx] Hn]; done|intros ->; auto].
Qed.

Lemma presses_cached_quiet n s f :
  _control (self s) = Some f →
  filter is_connect_input (emitted (world s) (world (presses n s))) = []
  ∧ filter is_control_new (emitted (world s) (world (presses n s))) = [].
Proof.
  intros Hc. induction n as [|n [IH1 IH2]].
  { simpl. by rw emitted_refl. }
  destruct (presses_cached n s f Hc) as [Hn _].
  destruct (press_cached _ _ Hn) as (d & Hp & _ & Hd1 & Hd2).
  simpl. rw (emitted_app (world s) (world (presses n s))).
  - apply presses_prefix.
  - apply press_prefix.
  - rw !filter_app IH1 IH2 Hp emitted_logged Hd1 Hd2. done.
Qed.

End Lifetime.

(** C2, refuted as stated: with the television off at the first press,
    the first activation of a [PowerOff] button constructs no control
    object. *)
Lemma constructs_on_first_press_only_fails :
  ¬ constructs_on_first_press_only (E:=tv_off_at_first_press)
      (fresh_button PowerOff 101).
Proof.
  intros [f [Hf _]].
  apply (f_equal size) in Hf. rw size_singleton in Hf.
  vm_compute in Hf. discriminate.
Qed.

(** C2, amended: for a button of any of the four kinds with nothing
    cached, the activations whose construction raises construct nothing
    and cache nothing; the first activation whose construction returns
    constructs exactly one control object and caches it; and when the
    acquisition of that activation returns (always so for a System,
    Media or Application button), every later activation uses that same
    object and constructs no other. *)
Theorem facade_constructed_once `{E : Env} (s0 : Machine) (n : nat) :
  _control (self s0) = None →
  (∀ k, k < n → ∃ e, construction (presses k s0) = Raises e) →
  (∃ cl, construction (presses n s0) = Returns cl) →
  constructed (world s0) (world (presses n s0)) = ∅
  ∧ _control (self (presses n s0)) = None
  ∧ ∃ f, constructed (world (presses n s0)) (world (presses (S n) s0)) = {[f]}
       ∧ _control (self (presses (S n) s0)) = Some f
       ∧ (base (cls (self s0)) ≠ InputButton →
          (control (presses n s0)).1 = Returns (Some f))
       ∧ ((control (presses n s0)).1 = Returns (Some f) →
          ∀ m, n < m →
            _control (self (presses m s0)) = Some f
            ∧ constructed (world (presses m s0)) (world (presses (S m) s0)) = ∅
            ∧ filter is_control_new
                (emitted (world (presses m s0)) (world (presses (S m) s0))) = []).
Proof.
  intros Hc Hr [cl Hcl].
  destruct (presses_construction_raises n s0 Hc Hr) as (Hn & Hh & _).
  split; [by apply constructed_same_heap|]. split; [done|].
  destruct (press_construction_returns _ _ Hn Hcl)
    as (c & d & Hp & _ & _ & _ & _ & _ & Hk).
  exists (fresh (dom (heap (world (presses n s0))))).
  split; [simpl; rw Hp; apply constructed_cached|].
  split; [simpl; by rw Hp|]. split.
  { intros Hb. apply Hk. rw kind_of_presses /kind_of. by destruct (base _). }
  intros _ m Hm.
  assert (Hm' : m = (m - S n) + S n) by lia.
  assert (Hcm : _control (self (presses m s0))
                = Some (fresh (dom (heap (world (presses n s0)))))).
  { rw Hm' presses_add. apply presses_cached. simpl. by rw Hp. }
  split; [done|].
  destruct (press_cached _ _ Hcm) as (d' & Hp' & _ & Hd' & _).
  simpl. rw Hp' emitted_logged. split; [by apply constructed_same_heap|done].
Qed.

Lemma facade_constructed_once_witness :
  let s0 := fresh_button PowerOff 101 in
  _control (self s0) = None
  ∧ (∀ k, k < 1 → ∃ e, construction (E:=tv_off_at_first_press)
                         (presses (E:=tv_off_at_first_press) k s0) = Raises e)
  ∧ (∃ cl, construction (E:=tv_off_at_first_press)
             (presses (E:=tv_off_at_first_press) 1 s0) = Returns cl)
  ∧ constructed (world s0) (world (presses (E:=tv_off_at_first_press) 1 s0)) = ∅.
Proof.
  assert (H1 : ∀ k, k < 1 → ∃ e, construction (E:=tv_off_at_first_press)
                 (presses (E:=tv_off_at_first_press) k (fresh_button PowerOff 101))
                 = Raises e).
  { intros k Hk. assert (k = 0) as -> by lia. eexists. reflexivity. }
  assert (H2 : ∃ cl, construction (E:=tv_off_at_first_press)
                 (presses (E:=tv_off_at_first_press) 1 (fresh_button PowerOff 101))
                 = Returns cl).
  { eexists. reflexivity. }
  split; [reflexivity|]. split; [exact H1|]. split; [exact H2|].
  exact (proj1 (facade_constructed_once (E:=tv_off_at_first_press)
                  (fresh_button PowerOff 101) 1 eq_refl H1 H2)).
Defined.

(** C4, refuted as stated: with the television off at the first press,
    the first activation of a [Home] button makes no [connect_input]
    call. *)
Lemma connects_on_first_press_only_fails :
  ¬ connects_on_first_press_only (E:=tv_off_at_first_press) (fresh_button Home 101).
Proof.
  intros [[f Hf] _]. vm_compute in Hf. discriminate.
Qed.

(** C4, amended: for an Input button with nothing cached, the
    activations whose construction raises make no [connect_input] call;
    the first activation whose construction returns makes exactly one,
    on the control object it caches; and when that call returns, the
    control object is connected, no later activation makes another
    [connect_input] call, and over the life of the button there is
    exactly that one. *)
Theorem connect_input_once `{E : Env} (s0 : Machine) (n : nat) :
  base (cls (self s0)) = InputButton →
  _control (self s0) = None →
  (∀ k, k < n → ∃ e, construction (presses k s0) = Raises e) →
  (∃ cl, construction (presses n s0) = Returns cl) →
  filter is_connect_input (emitted (world s0) (world (presses n s0))) = []
  ∧ ∃ f, filter is_connect_input
           (emitted (world (presses n s0)) (world (presses (S n) s0)))
         = [connect_input f]
       ∧ _control (self (presses (S n) s0)) = Some f
       ∧ ((control (presses n s0)).1 = Returns (Some f) →
          ∀ m, n < m →
            _control (self (presses m s0)) = Some f
            ∧ (∃ c, heap (world (presses m s0)) !! f = Some c
                    ∧ input_connected c = true)
            ∧ filter is_connect_input
                (emitted (world (presses m s0)) (world (presses (S m) s0))) = []
            ∧ filter is_connect_input (emitted (world s0) (world (presses m s0)))
              = [connect_input f]).
Proof.
  intros Hb Hc Hr [cl Hcl].
  destruct (presses_construction_raises n s0 Hc Hr) as (Hn & _ & Hq).
  split; [done|].
  destruct (press_construction_returns _ _ Hn Hcl)
    as (c & d & Hp & _ & _ & _ & Hd & Hconn & _).
  rw kind_of_presses /kind_of Hb /= in Hd.
  rw kind_of_presses /kind_of Hb /= in Hconn.
  set (f := fresh (dom (heap (world (presses n s0))))) in *.
  exists f.
  assert (Hone : filter is_connect_input
                   (emitted (world (presses n s0)) (world (presses (S n) s0)))
                 = [connect_input f]).
  { simpl. by rw Hp emitted_cached. }
  assert (HSn : _control (self (presses (S n) s0)) = Some f).
  { simpl. by rw Hp. }
  split; [done|]. split; [done|].
  intros Hret m Hm. rw Hret in Hconn.
  assert (Hm' : m = (m - S n) + S n) by lia.
  destruct (presses_cached (m - S n) _ f HSn) as [Hcm Hhm].
  rw -presses_add -Hm' in Hcm. rw -presses_add -Hm' in Hhm.
  split; [done|]. split; [|split].
  - exists c. rw Hhm /= Hp /= lookup_insert_eq. done.
  - destruct (press_cached _ _ Hcm) as (d' & Hp' & _ & _ & Hd').
    simpl. by rw Hp' emitted_logged.
  - rw (emitted_app (world s0) (world (presses (S n) s0))).
    + apply presses_prefix.
    + rw Hm' presses_add. apply presses_prefix.
    + rw (emitted_app (world s0) (world (presses n s0))).
      * apply presses_prefix.
      * apply press_prefix.
      * rw !filter_app Hq Hone Hm' presses_add.
        by rw (proj1 (presses_cached_quiet (m - S n) _ f HSn)).
Qed.

Lemma connect_input_once_witness :
  let s0 := fresh_button Home 101 in
  base (cls (self s0)) = InputButton
  ∧ _control (self s0) = None
  ∧ (∀ k, k < 1 → ∃ e, construction (E:=tv_off_at_first_press)
                         (presses (E:=tv_off_at_first_press) k s0) = Raises e)
  ∧ (∃ cl, construction (E:=tv_off_at_first_press)
             (presses (E:=tv_off_at_first_press) 1 s0) = Returns cl)
  ∧ filter is_connect_input
      (emitted (world s0) (world (presses (E:=tv_off_at_first_press) 1 s0))) = [].
Proof.
  assert (H1 : ∀ k, k < 1 → ∃ e, construction (E:=tv_off_at_first_press)
                 (presses (E:=tv_off_at_first_press) k (fresh_button Home 101))
                 = Raises e).
  { intros k Hk. assert (k = 0) as -> by lia. eexists. reflexivity. }
  assert (H2 : ∃ cl, construction (E:=tv_off_at_first_press)
                 (presses (E:=tv_off_at_first_press) 1 (fresh_button Home 101))
                 = Returns cl).
  { eexists. reflexivity. }
  split; [reflexivity|]. split; [reflexivity|]. split; [exact H1|]. split; [exact H2|].
  exact (proj1 (connect_input_once (E:=tv_off_at_first_press)
                  (fresh_button Home 101) 1 eq_refl eq_refl H1 H2)).
Defined.

(** ** Pressing again after a failure *)

Section Retry.
Context `{E : Env}.

Implicit Types (s : Machine) (f : obj).

(** System, Media and Application buttons: after a failed construction
    nothing is cached (see [press_construction_raises]), and with
    nothing cached a press over a working transport constructs the
    control object and calls the method. *)
Lemma press_with_working_transport s cl :
  base (cls (self s)) ≠ InputButton →
  _control (self s) = None →
  construction s = Returns cl →
  method_call_result (2 + clock (world s)) (fresh (dom (heap (world s))))
    (invocation s).1 (invocation s).2 = Returns () →
  (on_press s).1 = Returns ()
  ∧ emitted (world s) (world (press s))
    = [adapter_create (adapter (self s)) config_path "living_room";
       control_new (kind_of s) cl;
       method_call (fresh (dom (heap (world s)))) (invocation s).1 (invocation s).2].
Proof.
  intros Hb Hc. rw press_eq on_press_eq /construction.
  assert (Hk : kind_of s ≠ InputControl).
  { unfold kind_of. by destruct (base _). }
  press_cases; intros; simpl in *; simplify_eq;
    repeat match goal with u : () |- _ => destruct u end;
    first [done | congruence].
Qed.

(** Once a control object is cached, no activation changes it: an
    [InputControl] cached unconnected stays unconnected. *)
Lemma cached_control_is_kept s f n :
  _control (self s) = Some f →
  _control (self (presses n s)) = Some f
  ∧ heap (world (presses n s)) !! f = heap (world s) !! f
  ∧ filter is_connect_input (emitted (world s) (world (presses n s))) = [].
Proof.
  intros Hc.
  destruct (presses_cached n s f Hc) as [H1 H2].
  destruct (presses_cached_quiet n s f Hc) as [H3 _].
  by rw H2.
Qed.

End Retry.

(** C5, at an Input button: the first press of [Home] fails in
    [connect_input], and the [OSError] is caught and printed; the
    second press, over a working transport, finds the unconnected
    control object cached, makes no [connect_input] call and calls
    [home] on the unconnected object. *)
Theorem input_button_stays_disconnected :
  let s0 := fresh_button Home 101 in
  let s1 := press (E:=input_channel_down_at_first_press) s0 in
  let s2 := press (E:=input_channel_down_at_first_press) s1 in
  (on_press (E:=input_channel_down_at_first_press) s0).1 = Returns ()
  ∧ trace (world s1)
    = [adapter_create 101 "/home/pi/.lgtv.yaml" "living_room";
       control_new InputControl 102;
       connect_input 0;
       print (OSError "[Errno 111] Connection refused")]
  ∧ @connect_input_result input_channel_down_at_first_press (clock (world s1)) 0
    = Returns ()
  ∧ (on_press (E:=input_channel_down_at_first_press) s1).1 = Returns ()
  ∧ emitted (world s1) (world s2) = [method_call 0 "home" []]
  ∧ _control (self s2) = Some 0
  ∧ heap (world s2) !! 0 = Some (mkControl InputControl 102 false).
Proof. vm_compute. repeat split; reflexivity. Qed.

(** ** Start-up *)

(** X1: when [build] returns, it has made exactly four external calls,
    in this order: [Settings()], [WebOSClientAdapter(settings)],
    [settings.load(path)] and [settings.get('living_room')], the last
    two on the settings object the adapter was given; it has made no
    call to the television and constructed no control object; the tree
    holds one power-on button and one instance of each of the sixteen
    command button classes, all holding the one adapter and an empty
    cache. *)
Theorem build_is_lazy `{E : Env} (w w' : World) (tree : Widget) :
  TouchRemoteApp.build w = (Returns tree, w') →
  ∃ st ad tv,
    emitted w w' = [Settings_new; WebOSClientAdapter_new st;
                    Settings_load st config_path; Settings_get st "living_room"]
    ∧ WebOSClientAdapter_new_result (S (clock w)) st = Returns ad
    ∧ heap w' = heap w
    ∧ power_ons tree = [PowerOn.__init__ tv]
    ∧ buttons tree = (λ c, WebOsButton.__init__ c ad) <$> command_button_classes
    ∧ NoDup command_button_classes
    ∧ ∀ c : ButtonClass, c ∈ command_button_classes.
Proof.
  unfold_build.
  repeat case_match; simpl; intros; simplify_eq.
  eexists _, _, _. rw -!app_assoc /emitted /= drop_app_length /=.
  repeat split; try done.
  - apply (bool_decide_unpack _). by vm_compute.
  - intros []; apply (bool_decide_unpack _); by vm_compute.
Qed.

Lemma build_is_lazy_witness :
  ∃ tree w', TouchRemoteApp.build (E:=working) empty_world = (Returns tree, w')
             ∧ heap w' = ∅.
Proof.
  eexists _, _. split; [reflexivity|].
  destruct (build_is_lazy (E:=working) empty_world _ _ eq_refl)
    as (st & ad & tv & _ & _ & Hh & _).
  exact Hh.
Defined.

(** X2: when [settings.load] raises, whatever the exception (a missing
    file is an [OSError]), [build] raises it: nothing catches it, the
    power-on settings are never looked up and no widget tree is
    returned. *)
Theorem build_fails_when_load_raises `{E : Env} (w : World) (st ad : obj) (e : exn) :
  Settings_new_result (clock w) = Returns st →
  WebOSClientAdapter_new_result (S (clock w)) st = Returns ad →
  Settings_load_result (S (S (clock w))) st config_path = Raises e →
  (TouchRemoteApp.build w).1 = Raises e
  ∧ emitted w (TouchRemoteApp.build w).2
    = [Settings_new; WebOSClientAdapter_new st; Settings_load st config_path].
Proof.
  intros H1 H2 H3. unfold_build. rw H1 H2 H3 /=.
  by rw -!app_assoc /emitted /= drop_app_length.
Qed.

Lemma build_fails_when_load_raises_witness :
  (TouchRemoteApp.build (E:=config_missing) empty_world).1
  = Raises (OSError "[Errno 2] No such file or directory: '/home/pi/.lgtv.yaml'").
Proof.
  apply (build_fails_when_load_raises (E:=config_missing) empty_world 100 101);
    reflexivity.
Defined.

(** X3: when the settings have no device ['living_room'] and
    [settings.get] raises, [build] raises the same exception, after the
    settings were loaded, and no widget tree is returned. *)
Theorem build_fails_when_get_raises `{E : Env} (w : World) (st ad : obj) (e : exn) :
  Settings_new_result (clock w) = Returns st →
  WebOSClientAdapter_new_result (S (clock w)) st = Returns ad →
  Settings_load_result (S (S (clock w))) st config_path = Returns () →
  Settings_get_result (S (S (S (clock w)))) st "living_room" = Raises e →
  (TouchRemoteApp.build w).1 = Raises e
  ∧ emitted w (TouchRemoteApp.build w).2
    = [Settings_new; WebOSClientAdapter_new st; Settings_load st config_path;
       Settings_get st "living_room"].
Proof.
  intros H1 H2 H3 H4. unfold_build. rw H1 H2 H3 H4 /=.
  by rw -!app_assoc /emitted /= drop_app_length.
Qed.

Lemma build_fails_when_get_raises_witness :
  (TouchRemoteApp.build (E:=device_missing) empty_world).1
  = Raises (Exception "KeyError: 'living_room'").
Proof.
  apply (build_fails_when_get_raises (E:=device_missing) empty_world 100 101);
    reflexivity.
Defined.

(** ** What leaves [on_press] *)

Section Outcome.
Context `{E : Env}.

Implicit Types (s : Machine) (f : obj).

Lemma raised_in_eq s :
  raised_in s =
    match control_nf s with
    | (Raises e, _) => Some e
    | (Returns (Some f), s1) =>
        match method_call_result (clock (world s1)) f (invocation s).1 (invocation s).2 with
        | Raises e => Some e
        | Returns _ => None
        end
    | (Returns None, _) => Some (Exception "AttributeError")
    end.
Proof. unfold raised_in. by rw control_eq. Qed.

End Outcome.

(** X4: for every command button, when [self.control] or the method
    call raises an [OSError], [on_press] returns normally and its last
    external call is the one [print] of that error; the button keeps
    its class and adapter. *)
Theorem on_press_swallows_OSError `{E : Env} (s : Machine) (msg : string) :
  raised_in s = Some (OSError msg) →
  (on_press s).1 = Returns ()
  ∧ filter is_print (emitted (world s) (world (press s))) = [print (OSError msg)]
  ∧ last (emitted (world s) (world (press s))) = Some (print (OSError msg))
  ∧ cls (self (press s)) = cls (self s)
  ∧ adapter (self (press s)) = adapter (self s).
Proof.
  rw raised_in_eq press_eq on_press_eq.
  press_cases; intros; simplify_eq; done.
Qed.

Lemma on_press_swallows_OSError_witness :
  let s := fresh_button VolumeUp 101 in
  raised_in (E:=network_unreachable) s
    = Some (OSError "[Errno 101] Network is unreachable")
  ∧ (on_press (E:=network_unreachable) s).1 = Returns ().
Proof.
  split; [reflexivity|].
  apply (on_press_swallows_OSError (E:=network_unreachable) (fresh_button VolumeUp 101)
           "[Errno 101] Network is unreachable").
  reflexivity.
Defined.

(** X5: for every command button, when [self.control] or the method
    call raises an exception that is not an [OSError], [on_press]
    raises that exception and prints nothing. *)
Theorem on_press_propagates_other_exceptions `{E : Env} (s : Machine) (msg : string) :
  raised_in s = Some (Exception msg) →
  (on_press s).1 = Raises (Exception msg)
  ∧ filter is_print (emitted (world s) (world (press s))) = [].
Proof.
  rw raised_in_eq press_eq on_press_eq.
  press_cases; intros; simplify_eq; done.
Qed.

Lemma on_press_propagates_other_exceptions_witness :
  let s := fresh_button VolumeUp 101 in
  raised_in (E:=command_rejected) s = Some (Exception "RuntimeError: command rejected")
  ∧ (on_press (E:=command_rejected) s).1
    = Raises (Exception "RuntimeError: command rejected").
Proof.
  split; [reflexivity|].
  apply (on_press_propagates_other_exceptions (E:=command_rejected)
           (fresh_button VolumeUp 101) "RuntimeError: command rejected").
  reflexivity.
Defined.

(** X6: for every command button, when nothing is raised inside,
    [on_press] returns and prints nothing; and whatever happens inside,
    no [OSError] leaves [on_press] and at most one line is printed. *)
Theorem on_press_quiet_when_nothing_raised `{E : Env} (s : Machine) :
  (raised_in s = None →
   (on_press s).1 = Returns ()
   ∧ filter is_print (emitted (world s) (world (press s))) = [])
  ∧ (∀ msg, (on_press s).1 ≠ Raises (OSError msg))
  ∧ length (filter is_print (emitted (world s) (world (press s)))) ≤ 1.
Proof.
  rw raised_in_eq press_eq on_press_eq.
  press_cases; (split; [|split]); intros; simplify_eq;
    repeat match goal with u : () |- _ => destruct u end;
    try done; simpl; lia.
Qed.



(** ** The power-on button, outcomes *)

(** X8: [PowerOn.on_press] catches nothing and prints nothing: it
    raises whatever the address lookup raises, and otherwise sends the
    wake packet to the address found, [None] included when the host is
    not found, and raises whatever that raises; over any number of
    presses no line is printed. *)
Theorem power_on_press_never_catches `{E : Env} (p : PowerOn.t) (w : World) (n : nat) :
  (PowerOn.on_press p w).1 =
    match get_mac_address_result (clock w) (host (PowerOn.settings p)) with
    | Raises e => Raises e
    | Returns mac => send_magic_packet_result (S (clock w)) mac
    end
  ∧ (get_mac_address_result (clock w) (host (PowerOn.settings p)) = Returns None →
     emitted w (PowerOn.on_press p w).2
     = [get_mac_address (host (PowerOn.settings p)); send_magic_packet None])
  ∧ filter is_print (emitted w (power_on_presses n p w)) = [].
Proof.
  split; [|split].
  - cbv [PowerOn.on_press lookup_mac send_wake bind extern].
    by destruct (get_mac_address_result _ _).
  - intros Hn. unfold emitted. by rw power_on_press_trace Hn drop_app_length.
  - revert w; induction n as [|n IH]; intros w; simpl.
    + by rw emitted_refl.
    + rw (emitted_app w (PowerOn.on_press p w).2).
      * rw power_on_press_trace. by eexists.
      * apply power_on_presses_prefix.
      * rw filter_app IH /emitted power_on_press_trace drop_app_length.
        by destruct (get_mac_address_result _ _).
Qed.

(** ** The control object over the life of a button *)

Section OwnControl.
Context `{E : Env}.

Implicit Types (s : Machine) (f : obj).

Lemma invocation_class s s' : cls (self s) = cls (self s') → invocation s = invocation s'.
Proof.
  destruct s as [[c a ctl] w], s' as [[c' a' ctl'] w']; simpl; intros ->.
  by destruct c'.
Qed.

Lemma invocation_presses n s : invocation (presses n s) = invocation s.
Proof. apply invocation_class, presses_class. Qed.

(** One activation keeps the cache well formed, and calls methods only
    on the control object cached when it ends. *)
Lemma press_well_formed s :
  cache_well_formed s →
  cache_well_formed (press s)
  ∧ ∀ f name args,
      method_call f name args ∈ emitted (world s) (world (press s)) →
      _control (self (press s)) = Some f
      ∧ name = (invocation s).1 ∧ args = (invocation s).2.
Proof.
  unfold cache_well_formed. intros Hwf. rw press_eq.
  press_cases;
    (split;
     [ intros f' Hf'; simpl in *; simplify_eq;
       first [ by apply Hwf | rw lookup_insert_eq; by eexists ]
     | intros f' name args Hin;
       repeat (apply elem_of_cons in Hin as [Hin|Hin]; simplify_eq);
       first [ done | by apply elem_of_nil in Hin ] ]).
Qed.

Lemma presses_well_formed n s :
  cache_well_formed s → cache_well_formed (presses n s).
Proof.
  intros Hwf. induction n as [|n IH]; [done|]. simpl.
  by apply press_well_formed.
Qed.

End OwnControl.

(** X9: over any number of activations of a button that starts with a
    well-formed cache (an empty one, after [__init__]), every method
    call is made on the control object the button has cached at the
    end, which is of the class the button's [control] property
    constructs, and it is the button's own invocation: a button never
    calls a method on a control of another class or another button's
    command. *)
Theorem method_calls_on_own_control `{E : Env} (s0 : Machine) (n : nat)
    (f : obj) (name : string) (args : list arg) :
  cache_well_formed s0 →
  method_call f name args ∈ emitted (world s0) (world (presses n s0)) →
  _control (self (presses n s0)) = Some f
  ∧ (∃ c, heap (world (presses n s0)) !! f = Some c ∧ control_class c = kind_of s0)
  ∧ name = (invocation s0).1
  ∧ args = (invocation s0).2.
Proof.
  intros Hwf Hin.
  assert (Hcached : _control (self (presses n s0)) = Some f
                    ∧ name = (invocation s0).1 ∧ args = (invocation s0).2).
  { induction n as [|n IH].
    { simpl in Hin. rw emitted_refl in Hin. by apply elem_of_nil in Hin. }
    simpl in Hin.
    rw (emitted_app (world s0) (world (presses n s0))) in Hin.
    - apply presses_prefix.
    - apply press_prefix.
    - apply elem_of_app in Hin as [Hin|Hin].
      + destruct (IH Hin) as (Hc & Hname & Hargs).
        destruct (press_cached _ _ Hc) as (d & Hp & _).
        simpl. by rw Hp.
      + destruct (press_well_formed _ (presses_well_formed n s0 Hwf)) as [_ Hcalls].
        destruct (Hcalls _ _ _ Hin) as (Hc & Hname & Hargs).
        by rw invocation_presses in Hname, Hargs. }
  destruct Hcached as (Hc & Hname & Hargs).
  split; [done|]. split; [|done].
  destruct (presses_well_formed n s0 Hwf f Hc) as (c & Hh & Hk).
  exists c. by rw -(kind_of_presses n s0).
Qed.

Lemma method_calls_on_own_control_witness :
  let s0 := fresh_button Mute 101 in
  cache_well_formed s0
  ∧ method_call 0 "mute" [] ∈ emitted (world s0) (world (presses (E:=working) 2 s0))
  ∧ _control (self (presses (E:=working) 2 s0)) = Some 0.
Proof.
  assert (Hwf : cache_well_formed (fresh_button Mute 101)).
  { intros f Hf. discriminate Hf. }
  assert (Hin : method_call 0 "mute" []
                ∈ emitted (world (fresh_button Mute 101))
                    (world (presses (E:=working) 2 (fresh_button Mute 101)))).
  { apply (list_elem_of_lookup_2 _ 2). reflexivity. }
  split; [exact Hwf|]. split; [exact Hin|].
  exact (proj1 (method_calls_on_own_control (E:=working) (fresh_button Mute 101) 2
                  0 "mute" [] Hwf Hin)).
Defined.

(** ** Order of the calls on an input control *)

Section ConnectFirst.
Context `{E : Env}.

Implicit Types (s : Machine) (f : obj) (L d : list event).

Lemma connects_before_use_app L d :
  connects_before_use L →
  (∀ d1 d2 f name args,
     d = d1 ++ method_call f name args :: d2 → connect_input f ∈ L ++ d1) →
  connects_before_use (L ++ d).
Proof.
  intros HL Hd l1 l2 f name args Heq.
  apply app_eq_app in Heq as [l [[-> Heq]|[-> Heq]]].
  - destruct l as [|x l].
    + simpl in Heq. specialize (Hd [] l2 f name args (eq_sym Heq)).
      by rw !app_nil_r in Hd |- *.
    + simpl in Heq. injection Heq as <- ->.
      by apply (HL l1 l f name args).
  - by apply (Hd l l2 f name args).
Qed.

(** One activation of an Input button, after events [L] in which the
    cached control object, if any, was given its [connect_input]
    call. *)
Lemma press_connects_first s L :
  base (cls (self s)) = InputButton →
  (∀ f, _control (self s) = Some f → connect_input f ∈ L) →
  (∀ d1 d2 f name args,
     emitted (world s) (world (press s)) = d1 ++ method_call f name args :: d2 →
     connect_input f ∈ L ++ d1)
  ∧ (∀ f, _control (self (press s)) = Some f →
          connect_input f ∈ L ++ emitted (world s) (world (press s))).
Proof.
  intros Hb Hc.
  assert (Hk : kind_of s = InputControl) by by rw /kind_of Hb.
  rw press_eq. press_cases; try congruence;
    (split;
     [ intros d1 d2 f' name args Heq;
       repeat match goal with
              | H : _ = ?d ++ method_call _ _ _ :: _ |- _ =>
                  destruct d; simpl in H; simplify_eq
              end;
       rw ?app_nil_r; rw ?elem_of_app ?elem_of_cons; auto
     | intros f' Hf'; simpl in Hf'; simplify_eq;
       rw ?app_nil_r; rw ?elem_of_app ?elem_of_cons; auto ]).
Qed.

End ConnectFirst.

(** X10: over any number of activations of an Input button that starts
    with an empty cache, every method call on a control object comes
    after a [connect_input] call on that object: no command is sent to
    an input control before the button tried to connect it. *)
Theorem input_connects_before_use `{E : Env} (s0 : Machine) (n : nat) :
  base (cls (self s0)) = InputButton →
  _control (self s0) = None →
  connects_before_use (emitted (world s0) (world (presses n s0))).
Proof.
  intros Hb Hc.
  assert (H : connects_before_use (emitted (world s0) (world (presses n s0)))
              ∧ ∀ f, _control (self (presses n s0)) = Some f →
                     connect_input f ∈ emitted (world s0) (world (presses n s0))).
  { induction n as [|n [IH1 IH2]].
    { simpl. rw emitted_refl Hc. split; [|done].
      intros l1 l2 f name args Heq. by destruct l1. }
    assert (Hb' : base (cls (self (presses n s0))) = InputButton)
      by by rw presses_class.
    destruct (press_connects_first _ _ Hb' IH2) as [Hd Hf].
    simpl. rw (emitted_app (world s0) (world (presses n s0))).
    - apply presses_prefix.
    - apply press_prefix.
    - split; [by apply connects_before_use_app|done]. }
  apply H.
Qed.

Lemma input_connects_before_use_witness :
  let s0 := fresh_button Ok 101 in
  base (cls (self s0)) = InputButton
  ∧ _control (self s0) = None
  ∧ connects_before_use (emitted (world s0) (world (presses (E:=working) 2 s0))).
Proof.
  split; [reflexivity|]. split; [reflexivity|].
  apply (input_connects_before_use (E:=working) (fresh_button Ok 101) 2);
    reflexivity.
Defined.

(** ** Calls of [adapter.create] *)

Section Creates.
Context `{E : Env}.

Implicit Types (s : Machine) (f : obj).

(** An activation calls [adapter.create] once when nothing is cached,
    whatever happens next, and not at all otherwise. *)
Lemma press_creates s :
  filter is_adapter_create (emitted (world s) (world (press s))) =
    match _control (self s) with
    | None => [adapter_create (adapter (self s)) config_path "living_room"]
    | Some _ => []
    end.
Proof. rw press_eq. press_cases; done. Qed.

Lemma presses_adapter n s : adapter (self (presses n s)) = adapter (self s).
Proof.
  induction n as [|n IH]; [done|]. simpl. by rw (proj2 (press_class _)).
Qed.

Lemma presses_creates n m s :
  _control (self (presses n s)) = None →
  m ≤ n →
  filter is_adapter_create (emitted (world s) (world (presses m s)))
  = replicate m (adapter_create (adapter (self s)) config_path "living_room").
Proof.
  intros Hn. induction m as [|m IH]; intros Hm.
  { simpl. by rw emitted_refl. }
  assert (Hc : _control (self (presses m s)) = None).
  { destruct (_control (self (presses m s))) as [f|] eqn:Hf; [|done].
    assert (Hnm : n = (n - m) + m) by lia.
    rw Hnm presses_add in Hn.
    destruct (presses_cached (n - m) _ f Hf) as [Hc _]. congruence. }
  simpl. rw (emitted_app (world s) (world (presses m s))).
  - apply presses_prefix.
  - apply press_prefix.
  - rw filter_app IH; [lia|].
    rw press_creates Hc presses_adapter.
    by rw -replicate_S_end.
Qed.

Lemma presses_cached_no_create n s f :
  _control (self s) = Some f →
  filter is_adapter_create (emitted (world s) (world (presses n s))) = [].
Proof.
  intros Hc. induction n as [|n IH].
  { simpl. by rw emitted_refl. }
  destruct (presses_cached n s f Hc) as [Hn _].
  simpl. rw (emitted_app (world s) (world (presses n s))).
  - apply presses_prefix.
  - apply press_prefix.
  - by rw filter_app IH press_creates Hn.
Qed.

End Creates.

(** X11: a button calls [adapter.create] once in every activation that
    starts with nothing cached, with no back-off, and never once a
    control object is cached: if nothing is cached after [n]
    activations, they made [n] calls, all with the same arguments; and
    if the next activation caches a control object, the total stays at
    [n + 1] for ever. *)
Theorem adapter_create_once_per_uncached_press `{E : Env} (s0 : Machine) (n : nat) :
  _control (self (presses n s0)) = None →
  filter is_adapter_create (emitted (world s0) (world (presses n s0)))
  = replicate n (adapter_create (adapter (self s0)) config_path "living_room")
  ∧ ∀ f m,
      _control (self (presses (S n) s0)) = Some f →
      n < m →
      filter is_adapter_create (emitted (world s0) (world (presses m s0)))
      = replicate (S n) (adapter_create (adapter (self s0)) config_path "living_room").
Proof.
  intros Hn. split; [by apply (presses_creates n n)|].
  intros f m Hf Hm.
  assert (Hm' : m = (m - S n) + S n) by lia.
  rw (emitted_app (world s0) (world (presses (S n) s0))).
  - apply presses_prefix.
  - rw Hm' presses_add. apply presses_prefix.
  - rw filter_app Hm' presses_add (presses_cached_no_create _ _ f Hf) app_nil_r.
    simpl. rw (emitted_app (world s0) (world (presses n s0))).
    + apply presses_prefix.
    + apply press_prefix.
    + rw filter_app (presses_creates n n s0 Hn); [done|].
      rw press_creates Hn presses_adapter. by rw -replicate_S_end.
Qed.

Lemma adapter_create_once_per_uncached_press_witness :
  let s0 := fresh_button Pause 101 in
  _control (self (presses (E:=network_unreachable) 3 s0)) = None
  ∧ filter is_adapter_create
      (emitted (world s0) (world (presses (E:=network_unreachable) 3 s0)))
    = replicate 3 (adapter_create 101 (config_path (E:=network_unreachable))
                     "living_room").
Proof.
  split; [reflexivity|].
  apply (adapter_create_once_per_uncached_press (E:=network_unreachable)
           (fresh_button Pause 101) 3).
  reflexivity.
Defined.

(** ** Control objects of different buttons *)

Section NotShared.
Context `{E : Env}.

Implicit Types (s : Machine) (f : obj).

Lemma press_caches_fresh s f :
  _control (self s) = None →
  _control (self (press s)) = Some f →
  f = fresh (dom (heap (world s))) ∧ f ∈ dom (heap (world (press s))).
Proof.
  intros Hc. rw press_eq. press_cases; intros; simplify_eq;
    (split; [done|]); rw dom_insert_L elem_of_union elem_of_singleton; auto.
Qed.

End NotShared.

(** X12: control objects are not shared between buttons: when a button
    with an empty cache is activated in the world left by the
    activation that cached another button's control object, it caches
    a new control object, even when both buttons are of the same kind
    and hold the same adapter. *)
Theorem controls_are_not_shared `{E : Env} (sA : Machine) (b : Button) (fA fB : obj) :
  _control (self sA) = None →
  _control b = None →
  _control (self (press sA)) = Some fA →
  _control (self (press (mkMachine b (world (press sA))))) = Some fB →
  fA ≠ fB
  ∧ fA ∈ dom (heap (world (press (mkMachine b (world (press sA))))))
  ∧ fB ∈ dom (heap (world (press (mkMachine b (world (press sA)))))).
Proof.
  intros HA Hb HfA HfB.
  destruct (press_caches_fresh sA fA HA HfA) as [_ HinA].
  destruct (press_caches_fresh (mkMachine b (world (press sA))) fB Hb HfB)
    as [HeqB HinB].
  simpl in HeqB.
  assert (HnotB : fB ∉ dom (heap (world (press sA)))).
  { rw HeqB. apply is_fresh. }
  split; [by intros ->|]. split; [|done].
  revert HfB HinB. rw (press_eq (mkMachine b _)).
  press_cases; intros; simplify_eq; rw dom_insert_L elem_of_union; auto.
Qed.

Lemma controls_are_not_shared_witness :
  let sA := fresh_button VolumeUp 101 in
  let b := WebOsButton.__init__ VolumeDown 101 in
  _control (self sA) = None
  ∧ _control b = None
  ∧ _control (self (press (E:=working) sA)) = Some 0
  ∧ _control (self (press (E:=working)
                      (mkMachine b (world (press (E:=working) sA))))) = Some 1
  ∧ 0 ≠ 1.
Proof.
  split; [reflexivity|]. split; [reflexivity|].
  split; [reflexivity|]. split; [reflexivity|].
  apply (controls_are_not_shared (E:=working) (fresh_button VolumeUp 101)
           (WebOsButton.__init__ VolumeDown 101) 0 1); reflexivity.
Defined.
